(** * libcmd: running named scripts in throw-away containers

    A shallow embedding of [libcmd.go] and the properties of its execution
    life cycle: configuration defaulting, the command line handed to the
    container runtime, unconditional removal of the created container, the
    completion poll, retrieval and demultiplexing of the combined log
    stream, and the classification of errors.

    The container runtime and the socket transport are collaborators of
    the package.  They are a record of handlers over an arbitrary [World];
    every call made to them is recorded, in order, as an [Event]. *)

From Stdlib Require Import ZArith NArith Lia.
From Stdlib Require Import Strings.Byte.
From stdpp Require Import base option list strings gmap.

Local Open Scope string_scope.
Local Open Scope list_scope.

(** ** Errors *)

(** What went wrong in a frame of the combined log stream. *)
Inductive DecodeError : Type :=
| BadDiscriminator (d : byte)
| TruncatedFrame.

(** Go's [error] values.  [ErrCommandResponse] is the package's own
    sentinel, [ErrConnectionRefused] is [docker.ErrConnectionRefused], and
    [ErrExternal] stands for any error value made by a collaborator (the
    runtime client, [net], [net/http]); it carries its [Error()] text.
    A nil [error] is [None : option error]. *)
Inductive error : Type :=
| ErrCommandResponse
| ErrConnectionRefused
| ErrDecode (why : DecodeError)
| ErrExternal (msg : string).

Definition Error (e : error) : string :=
  match e with
  | ErrCommandResponse => "error running command"
  | ErrConnectionRefused => "cannot connect to Docker endpoint"
  | ErrDecode (BadDiscriminator _) => "unrecognized stream discriminator"
  | ErrDecode TruncatedFrame => "truncated frame"
  | ErrExternal msg => msg
  end.

Inductive result (A : Type) : Type :=
| Ok (a : A)
| Err (e : error).
Arguments Ok {A} a.
Arguments Err {A} e.

(** ** Data of the package and of its collaborators *)

Record CmdConfig : Type := mkCmdConfig {
  CommandsDir : string;
  DockerEndpoint : string;
  ContainerRepository : string;
  ContainerTag : string
}.

(** [docker.Client]: a handle on the daemon at some endpoint. *)
Record Client : Type := mkClient { endpoint : string }.

(** [Cmd.dockerClient] is a [*docker.Client]; [None] is the nil pointer. *)
Record Cmd : Type := mkCmd {
  op : string;
  dockerClient : option Client
}.

Record Container : Type := mkContainer { ID : string }.

(** [time.Time] as nanoseconds since the zero instant, [time.Duration] as
    nanoseconds. *)
Definition Time : Type := Z.
Definition Duration : Type := Z.

Definition nilTime : Time := 0%Z.
Definition Time_Equal (t u : Time) : bool := (t =? u)%Z.

Definition Nanosecond : Duration := 1%Z.
Definition Microsecond : Duration := (1000 * Nanosecond)%Z.
Definition Millisecond : Duration := (1000 * Microsecond)%Z.

Record ContainerState : Type := mkState { FinishedAt : Time }.
Record ContainerInfo : Type := mkInfo { State : ContainerState }.

Record DockerConfig : Type := mkDockerConfig {
  Image : string;
  DCmd : list string
}.
Record CreateContainerOptions : Type := mkCreateOpts { Config : DockerConfig }.
Record RemoveContainerOptions : Type := mkRemoveOpts {
  RmID : string;
  RemoveVolumes : bool;
  Force : bool
}.
Record PullImageOptions : Type := mkPullOpts {
  Repository : string;
  Tag : string
}.
Inductive HostConfig : Type := EmptyHostConfig.

Record Request : Type := mkRequest {
  Method : string;
  URL : string;
  Header : list (string * string)
}.
Record Response : Type := mkResponse {
  StatusCode : Z;
  Body : list byte
}.
Record Conn : Type := mkConn { fd : nat }.

Definition Header_Set (k v : string) (r : Request) : Request :=
  {| Method := Method r; URL := URL r;
     Header := (k, v) :: filter (fun kv => kv.1 ≠ k) (Header r) |}.

(** ** Calls to the collaborators *)

Inductive Level : Type := LDebug | LInfo | LError | LFatal.

Inductive Event : Type :=
| EvLog (lvl : Level) (msg : string)
| EvPullImage (c : Client) (opts : PullImageOptions)
| EvCreateContainer (c : Client) (opts : CreateContainerOptions)
| EvStartContainer (c : Client) (id : string) (h : HostConfig)
| EvInspectContainer (c : Client) (id : string)
| EvRemoveContainer (c : Client) (opts : RemoveContainerOptions)
| EvSleep (d : Duration)
| EvDial (network address : string)
| EvDo (conn : Conn) (req : Request)
| EvClientConnClose (conn : Conn)
| EvConnClose (conn : Conn).

(** The handlers behind the package: the docker client library, [net],
    [net/http] and [time].  [NewClient] and [NewRequest] only parse their
    arguments. *)
Record Runtime (World : Type) : Type := mkRuntime {
  NewClient : string -> result Client;
  PullImage : Client -> PullImageOptions -> World -> option error * World;
  CreateContainer :
    Client -> CreateContainerOptions -> World -> result Container * World;
  StartContainer :
    Client -> string -> HostConfig -> World -> option error * World;
  InspectContainer : Client -> string -> World -> result ContainerInfo * World;
  RemoveContainer :
    Client -> RemoveContainerOptions -> World -> option error * World;
  Sleep : Duration -> World -> World;
  NewRequest : string -> string -> result Request;
  Dial : string -> string -> World -> result Conn * World;
  Do : Conn -> Request -> World -> result Response * World;
  ClientConnClose : Conn -> World -> World;
  ConnClose : Conn -> World -> World
}.
Arguments NewClient {World} _.
Arguments PullImage {World} _.
Arguments CreateContainer {World} _.
Arguments StartContainer {World} _.
Arguments InspectContainer {World} _.
Arguments RemoveContainer {World} _.
Arguments Sleep {World} _.
Arguments NewRequest {World} _.
Arguments Dial {World} _.
Arguments Do {World} _.
Arguments ClientConnClose {World} _.
Arguments ConnClose {World} _.

(** ** The monad of package code *)

(** How a call ends: it returns, it is still in the completion poll when
    the fuel is spent, the process exits ([log.Fatal]), or it panics. *)
Inductive Outcome (A : Type) : Type :=
| Returns (a : A)
| Running
| Exits
| Panics.
Arguments Returns {A} a.
Arguments Running {A}.
Arguments Exits {A}.
Arguments Panics {A}.

Section Monad.
Context {World : Type}.

(** The package-level variables and the world outside. *)
Record Store : Type := mkStore {
  world : World;
  config : CmdConfig;
  globalDockerClient : option Client
}.

Record Run_of (A : Type) : Type := mkRun {
  outcome : Outcome A;
  final : Store;
  emitted : list Event
}.
Arguments mkRun {A}.
Arguments outcome {A}.
Arguments final {A}.
Arguments emitted {A}.

Definition M (A : Type) : Type := Store -> Run_of A.

Definition ret {A} (a : A) : M A :=
  fun s => mkRun (Returns a) s [].

Definition bind {A B} (m : M A) (k : A -> M B) : M B :=
  fun s =>
    match m s with
    | mkRun (Returns a) s1 ev1 =>
        match k a s1 with
        | mkRun o s2 ev2 => mkRun o s2 (ev1 ++ ev2)
        end
    | mkRun Running s1 ev1 => mkRun Running s1 ev1
    | mkRun Exits s1 ev1 => mkRun Exits s1 ev1
    | mkRun Panics s1 ev1 => mkRun Panics s1 ev1
    end.

Definition running {A} : M A := fun s => mkRun Running s [].
Definition panic {A} : M A := fun s => mkRun Panics s [].
Definition exit {A} : M A := fun s => mkRun Exits s [].

(** The outcome [o] of a body once its deferred call ended in [c]. *)
Definition after {A B} (o : Outcome A) (c : Outcome B) : Outcome A :=
  match c with
  | Returns _ => o
  | Running => Running
  | Exits => Exits
  | Panics => Panics
  end.

(** Go's [defer]: [cleanup] runs when [body] returns or panics, its own
    result is dropped; it does not run when the process exits. *)
Definition defer {A B} (cleanup : M B) (body : M A) : M A :=
  fun s =>
    match body s with
    | mkRun Running s1 ev1 => mkRun Running s1 ev1
    | mkRun Exits s1 ev1 => mkRun Exits s1 ev1
    | mkRun o s1 ev1 =>
        match cleanup s1 with
        | mkRun o' s2 ev2 => mkRun (after o o') s2 (ev1 ++ ev2)
        end
    end.

(** One call to a collaborator: it is recorded and changes the world. *)
Definition call {A} (ev : Event) (h : World -> A * World) : M A :=
  fun s =>
    let '(a, w) := h (world s) in
    mkRun (Returns a) (mkStore w (config s) (globalDockerClient s)) [ev].

Definition call_ (ev : Event) (h : World -> World) : M unit :=
  call ev (fun w => (tt, h w)).

Definition read_config : M CmdConfig := fun s => mkRun (Returns (config s)) s [].
Definition write_config (c : CmdConfig) : M unit :=
  fun s => mkRun (Returns tt) (mkStore (world s) c (globalDockerClient s)) [].
Definition read_client : M (option Client) :=
  fun s => mkRun (Returns (globalDockerClient s)) s [].
Definition write_client (c : option Client) : M unit :=
  fun s => mkRun (Returns tt) (mkStore (world s) (config s) c) [].

(** A method call through a [*docker.Client]: through nil it panics. *)
Definition deref {A} (c : option Client) (k : Client -> M A) : M A :=
  match c with
  | Some cl => k cl
  | None => panic
  end.
End Monad.

Arguments Store World : clear implicits.
Arguments Run_of World A : clear implicits.
Arguments M World A : clear implicits.
Arguments mkRun {World A}.
Arguments outcome {World A}.
Arguments final {World A}.
Arguments emitted {World A}.

Notation "'let*' x ':=' c 'in' k" := (bind c (fun x => k))
  (at level 10, x pattern, c at level 100, k at level 200).
Notation "c ';;' k" := (bind c (fun _ => k))
  (at level 100, k at level 200, right associativity).

(** ** Strings and bytes *)

(** [strings.Contains]. *)
Fixpoint strings_Contains (s substr : string) : bool :=
  String.prefix substr s ||
  match s with
  | EmptyString => false
  | String _ s' => strings_Contains s' substr
  end.

(** The conversion [string(b)] of a byte slice. *)
Definition string_of_bytes (b : list byte) : string := String.string_of_list_byte b.

(** ** The output demultiplexer *)

Inductive StdType : Type := Stdout | Stderr.

Definition discriminator (t : StdType) : byte :=
  match t with
  | Stdout => x01
  | Stderr => x02
  end.

Definition std_type (d : byte) : option StdType :=
  match d with
  | x01 => Some Stdout
  | x02 => Some Stderr
  | _ => None
  end.

(** The four length bytes of a header, most significant first. *)
Definition be32_decode (b4 b5 b6 b7 : byte) : N :=
  (((Byte.to_N b4 * 256 + Byte.to_N b5) * 256 + Byte.to_N b6) * 256
   + Byte.to_N b7)%N.

(** Modelled from the spec: [stdCopy], which [makeRequest] calls and which
    is defined outside [libcmd.go].  The source is a sequence of frames:
    an 8-byte header (one discriminator byte, 1 for stdout and 2 for
    stderr, three padding bytes, a 4-byte big-endian unsigned payload
    length) followed by that many payload bytes.  Frames are read until
    the source is exhausted; each payload is appended to the buffer its
    discriminator selects.  A discriminator other than 1 and 2, and a
    frame that ends before its declared length, are decode errors.
    [fuel] bounds the number of frames read. *)
Fixpoint stdCopy_from (fuel : nat) (written : Z)
    (dstout dsterr src : list byte)
    : (list byte * list byte) * (Z * option error) :=
  match src with
  | [] => ((dstout, dsterr), (written, None))
  | d :: p1 :: p2 :: p3 :: b4 :: b5 :: b6 :: b7 :: rest =>
      match std_type d with
      | None => ((dstout, dsterr), (0%Z, Some (ErrDecode (BadDiscriminator d))))
      | Some t =>
          let n := N.to_nat (be32_decode b4 b5 b6 b7) in
          if decide (n <= length rest) then
            match fuel with
            | O => ((dstout, dsterr), (written, None))
            | S fuel' =>
                let payload := take n rest in
                let written' := (written + Z.of_nat n)%Z in
                match t with
                | Stdout =>
                    stdCopy_from fuel' written' (dstout ++ payload)%list dsterr
                                 (drop n rest)
                | Stderr =>
                    stdCopy_from fuel' written' dstout (dsterr ++ payload)%list
                                 (drop n rest)
                end
            end
          else ((dstout, dsterr), (0%Z, Some (ErrDecode TruncatedFrame)))
      end
  | _ => ((dstout, dsterr), (0%Z, Some (ErrDecode TruncatedFrame)))
  end.

(** Every frame takes at least its 8 header bytes, so [length src] frames
    are never reached. *)
Definition stdCopy (dstout dsterr src : list byte)
    : (list byte * list byte) * (Z * option error) :=
  stdCopy_from (length src) 0 dstout dsterr src.

(** ** The package *)

(** The defaults of the configuration, key by key. *)
Definition cmdConfigDefaultOpts : gmap string string :=
  <["CommandsDir" := "/root/commands"]>
  (<["DockerEndpoint" := "unix:///var/run/docker.sock"]>
  (<["ContainerRepository" := "freighterio/cmd"]>
  (<["ContainerTag" := "latest"]> ∅))).

(** [reflect.ValueOf(&config).Elem().FieldByName(key).SetString(v)]: for a
    name that is no field of [CmdConfig] the zero [Value] is returned and
    [SetString] panics ([None]). *)
Definition SetString (key v : string) (c : CmdConfig) : option CmdConfig :=
  if decide (key = "CommandsDir") then
    Some (mkCmdConfig v (DockerEndpoint c) (ContainerRepository c)
                      (ContainerTag c))
  else if decide (key = "DockerEndpoint") then
    Some (mkCmdConfig (CommandsDir c) v (ContainerRepository c)
                      (ContainerTag c))
  else if decide (key = "ContainerRepository") then
    Some (mkCmdConfig (CommandsDir c) (DockerEndpoint c) v (ContainerTag c))
  else if decide (key = "ContainerTag") then
    Some (mkCmdConfig (CommandsDir c) (DockerEndpoint c)
                      (ContainerRepository c) v)
  else None.

Section Package.
Context {World : Type} (rt : Runtime World).

Definition log (lvl : Level) (msg : string) : M World unit :=
  fun s => mkRun (Returns tt) s [EvLog lvl msg].

(** [log.Fatal]: the entry is written and the process exits. *)
Definition log_Fatal {A} (e : error) : M World A :=
  log LFatal (Error e) ;; exit.

(** The progress lines of the pull are logged by a goroutine of their own,
    at debug level; they are not recorded here. *)
Definition pullImage (client : option Client) (repository tag : string)
    : M World (option error) :=
  let opts := {| Repository := repository; Tag := tag |} in
  log LInfo ("pulling image " +:+ repository +:+ ":" +:+ tag) ;;
  let* err := deref client (fun cl =>
                call (EvPullImage cl opts) (PullImage rt cl opts)) in
  match err with
  | Some e => ret (Some e)
  | None =>
      log LInfo (" -> pulling image " +:+ repository +:+ ":" +:+ tag
                 +:+ " complete") ;;
      ret None
  end.

Definition createContainer (client : option Client)
    (repository tag : string) (cmd : list string)
    : M World (result Container) :=
  log LInfo ("creating container " +:+ repository +:+ ":" +:+ tag) ;;
  let config := {| Image := repository +:+ ":" +:+ tag; DCmd := cmd |} in
  let opts := {| Config := config |} in
  let* r := deref client (fun cl =>
              call (EvCreateContainer cl opts) (CreateContainer rt cl opts)) in
  match r with
  | Err err =>
      log LError (" -> error creating container " +:+ repository +:+ ":"
                  +:+ tag +:+ ": " +:+ Error err) ;;
      ret (Err err)
  | Ok container =>
      log LInfo (" -> container " +:+ repository +:+ ":" +:+ tag
                 +:+ " with id " +:+ ID container +:+ " created") ;;
      ret (Ok container)
  end.

Definition startContainer (client : option Client) (containerId : string)
    : M World (option error) :=
  log LInfo ("starting container " +:+ containerId) ;;
  let hostConfig := EmptyHostConfig in
  let* err := deref client (fun cl =>
                call (EvStartContainer cl containerId hostConfig)
                     (StartContainer rt cl containerId hostConfig)) in
  match err with
  | Some e =>
      log LError (" -> error starting container " +:+ containerId +:+ ": "
                  +:+ Error e) ;;
      ret (Some e)
  | None =>
      log LInfo (" -> container " +:+ containerId +:+ " started") ;;
      ret None
  end.

Definition removeContainer (client : option Client) (containerId : string)
    : M World (option error) :=
  log LInfo ("remove container " +:+ containerId) ;;
  let opts := {| RmID := containerId; RemoveVolumes := false;
                 Force := true |} in
  let* err := deref client (fun cl =>
                call (EvRemoveContainer cl opts) (RemoveContainer rt cl opts)) in
  match err with
  | Some e =>
      log LError (" -> error removing container " +:+ containerId +:+ ": "
                  +:+ Error e) ;;
      ret (Some e)
  | None =>
      log LInfo (" -> container " +:+ containerId +:+ " removed") ;;
      ret None
  end.

(** The four results of [makeRequest]. *)
Definition Reply : Type := list byte * list byte * Z * option error.
Definition failed (e : error) : Reply := ([], [], (-1)%Z, Some e).

Definition makeRequest (method path : string) : M World Reply :=
  match NewRequest rt method path with
  | Err err => ret (failed err)
  | Ok req =>
      let req := Header_Set "User-Agent" "go-dockerclient" req in
      let address := "/var/run/docker.sock" in
      let* dial := call (EvDial "unix" address) (Dial rt "unix" address) in
      match dial with
      | Err err => ret (failed err)
      | Ok dial =>
          defer (call_ (EvConnClose dial) (ConnClose rt dial)) (
            let clientconn := dial in
            let* r := call (EvDo clientconn req) (Do rt clientconn req) in
            match r with
            | Err err => ret (failed err)
            | Ok resp =>
                let err : option error := None in
                defer (call_ (EvClientConnClose clientconn)
                             (ClientConnClose rt clientconn)) (
                  match err with
                  | Some e =>
                      if strings_Contains (Error e) "connection refused"
                      then ret (failed ErrConnectionRefused)
                      else ret (failed e)
                  | None =>
                      let '((stdoutBuffer, stderrBuffer), (_, err)) :=
                        stdCopy [] [] (Body resp) in
                      match err with
                      | Some e => ret (failed e)
                      | None =>
                          let bErr := stderrBuffer in
                          let bOut := stdoutBuffer in
                          ret (bOut, bErr, StatusCode resp, None)
                      end
                  end)
            end)
      end
  end.

Definition getLogs (client : option Client) (containerId : string)
    : M World (string * option error) :=
  log LInfo ("getting container " +:+ containerId +:+ " logs") ;;
  let* (stdout, stderr, _, err) :=
    makeRequest "GET" ("/containers/" +:+ containerId
                       +:+ "/logs?follow=0&stderr=1&stdout=1") in
  match err with
  | Some e =>
      log LError (" -> error making container " +:+ containerId
                  +:+ " logs request: " +:+ Error e) ;;
      ret ("", Some e)
  | None =>
      if decide (length stderr ≠ 0) then
        log LError (" -> error running container " +:+ containerId
                    +:+ " command: " +:+ string_of_bytes stderr) ;;
        ret (string_of_bytes stderr, Some ErrCommandResponse)
      else
        log LInfo (" -> container " +:+ containerId
                   +:+ " logs request complete") ;;
        ret (string_of_bytes stdout, None)
  end.

(** The completion poll of [Run]: [None] when the loop is left by
    [break], [Some err] when [Run] returns from inside it.  One unit of
    [fuel] is one turn of the loop. *)
Fixpoint poll (fuel : nat) (client : option Client) (id : string)
    : M World (option error) :=
  match fuel with
  | O => running
  | S fuel' =>
      let* r := deref client (fun cl =>
                  call (EvInspectContainer cl id)
                       (InspectContainer rt cl id)) in
      match r with
      | Err err => ret (Some err)
      | Ok cntr =>
          if negb (Time_Equal (FinishedAt (State cntr)) nilTime)
          then ret None
          else
            call_ (EvSleep (Millisecond + 100)%Z)
                  (Sleep rt (Millisecond + 100)%Z) ;;
            poll fuel' client id
      end
  end.

Definition Run (fuel : nat) (c : Cmd) (args : list string)
    : M World (string * option error) :=
  let* config := read_config in
  let cmd := ["bash"; CommandsDir config +:+ "/" +:+ op c +:+ ".sh"] in
  let cmd := (cmd ++ args)%list in
  let* r := createContainer (dockerClient c) (ContainerRepository config)
                            (ContainerTag config) cmd in
  match r with
  | Err err => ret ("", Some err)
  | Ok container =>
      defer (removeContainer (dockerClient c) (ID container)) (
        let* err := startContainer (dockerClient c) (ID container) in
        match err with
        | Some e => ret ("", Some e)
        | None =>
            let* stop := poll fuel (dockerClient c) (ID container) in
            match stop with
            | Some e => ret ("", Some e)
            | None =>
                let* (logs, err) :=
                  getLogs (dockerClient c) (ID container) in
                match err with
                | Some e => ret ("", Some e)
                | None => ret (logs, None)
                end
            end
        end)
  end.

Definition NewCmd (op : string) : M World Cmd :=
  let* client := read_client in
  ret (mkCmd op client).

(** The loop of [InitCmdContainer] over [cmdConfigDefaultOpts]; [entries]
    is the order in which the map is ranged over. *)
Fixpoint range_defaults (entries : list (string * string))
    (opts : gmap string string) : M World unit :=
  match entries with
  | [] => ret tt
  | (key, dflt) :: entries' =>
      let* config := read_config in
      let v := match opts !! key with
               | Some value => value
               | None => dflt
               end in
      match SetString key v config with
      | None => panic
      | Some config' =>
          write_config config' ;;
          range_defaults entries' opts
      end
  end.

Definition InitCmdContainer (entries : list (string * string))
    (opts : gmap string string) : M World unit :=
  write_config (mkCmdConfig "" "" "" "") ;;
  range_defaults entries opts ;;
  let* config := read_config in
  match NewClient rt (DockerEndpoint config) with
  | Err err => log_Fatal err
  | Ok client =>
      write_client (Some client) ;;
      let* client := read_client in
      let* config := read_config in
      let* err := pullImage client (ContainerRepository config)
                            (ContainerTag config) in
      match err with
      | Some e => log_Fatal e
      | None => ret tt
      end
  end.
End Package.

(** ** The wire format of the combined log stream *)

(** A frame as the runtime sends it. *)
Record Frame : Type := mkFrame {
  fr_type : StdType;
  fr_pad : byte * byte * byte;
  fr_payload : list byte
}.

Definition byte_of_N (n : N) : byte :=
  default x00 (Byte.of_N (n mod 256)).

(** A payload length as four bytes, most significant first. *)
Definition be32 (n : N) : list byte :=
  [byte_of_N (n / 16777216); byte_of_N (n / 65536); byte_of_N (n / 256);
   byte_of_N n].

Definition encode_frame (f : Frame) : list byte :=
  discriminator (fr_type f) :: (fr_pad f).1.1 :: (fr_pad f).1.2
    :: (fr_pad f).2 :: be32 (N.of_nat (length (fr_payload f)))
    ++ fr_payload f.

Definition encode (fs : list Frame) : list byte :=
  concat (map encode_frame fs).

(** The payload length fits the four length bytes. *)
Definition well_formed (f : Frame) : Prop :=
  (N.of_nat (length (fr_payload f)) < 4294967296)%N.

Definition is_type (t : StdType) (f : Frame) : bool :=
  match t, fr_type f with
  | Stdout, Stdout | Stderr, Stderr => true
  | _, _ => false
  end.

(** What was written to one stream, in the order of the frames. *)
Definition payloads (t : StdType) (fs : list Frame) : list byte :=
  concat (map fr_payload (List.filter (is_type t) fs)).

(** A frame on which decoding stops: its discriminator is neither 1 nor 2,
    or its declared length exceeds the bytes that remain. *)
Inductive Malformed : list byte -> DecodeError -> Prop :=
| malformed_discriminator d p1 p2 p3 b4 b5 b6 b7 rest :
    std_type d = None ->
    Malformed (d :: p1 :: p2 :: p3 :: b4 :: b5 :: b6 :: b7 :: rest)
              (BadDiscriminator d)
| malformed_truncated t p1 p2 p3 b4 b5 b6 b7 rest :
    length rest < N.to_nat (be32_decode b4 b5 b6 b7) ->
    Malformed (discriminator t :: p1 :: p2 :: p3 :: b4 :: b5 :: b6 :: b7
                 :: rest)
              TruncatedFrame.

(** ** Views of the recorded calls *)

Definition creations (evs : list Event)
    : list (Client * CreateContainerOptions) :=
  omap (fun ev => match ev with
                  | EvCreateContainer c o => Some (c, o)
                  | _ => None
                  end) evs.

Definition removals (evs : list Event)
    : list (Client * RemoveContainerOptions) :=
  omap (fun ev => match ev with
                  | EvRemoveContainer c o => Some (c, o)
                  | _ => None
                  end) evs.

Definition sleeps (evs : list Event) : list Duration :=
  omap (fun ev => match ev with
                  | EvSleep d => Some d
                  | _ => None
                  end) evs.

Definition dials (evs : list Event) : list (string * string) :=
  omap (fun ev => match ev with
                  | EvDial n a => Some (n, a)
                  | _ => None
                  end) evs.

(** ** What the properties speak of *)

(** The number of payload bytes in a stream of frames. *)
Definition total_payload (fs : list Frame) : Z :=
  foldr (fun f n => (Z.of_nat (length (fr_payload f)) + n)%Z) 0%Z fs.

(** The argument of the one [Sleep] in [Run], in nanoseconds. *)
Definition poll_interval : Duration := 1000100%Z.

Definition command_line (cfg : CmdConfig) (op : string) (args : list string)
    : list string :=
  "bash" :: (CommandsDir cfg +:+ "/" +:+ op +:+ ".sh") :: args.

Definition image_reference (cfg : CmdConfig) : string :=
  ContainerRepository cfg +:+ ":" +:+ ContainerTag cfg.

Definition create_options (cfg : CmdConfig) (op : string)
    (args : list string) : CreateContainerOptions :=
  {| Config := {| Image := image_reference cfg;
                  DCmd := command_line cfg op args |} |}.

Definition forced_removal (id : string) : RemoveContainerOptions :=
  {| RmID := id; RemoveVolumes := false; Force := true |}.

(** The poll from world [w] is over within [n] inspections: one of them
    fails or reports a completion time. *)
Fixpoint settles {World : Type} (rt : Runtime World) (n : nat)
    (cl : Client) (id : string) (w : World) : Prop :=
  match n with
  | O => False
  | S n' =>
      match InspectContainer rt cl id w with
      | (Err _, _) => True
      | (Ok info, w') =>
          if Time_Equal (FinishedAt (State info)) nilTime
          then settles rt n' cl id (Sleep rt (Millisecond + 100)%Z w')
          else True
      end
  end.

(** The configuration the options [opts] stand for: each field is the
    value of its key, or its default. *)
Definition effective_config (opts : gmap string string) : CmdConfig := {|
  CommandsDir := default "/root/commands" (opts !! "CommandsDir");
  DockerEndpoint :=
    default "unix:///var/run/docker.sock" (opts !! "DockerEndpoint");
  ContainerRepository :=
    default "freighterio/cmd" (opts !! "ContainerRepository");
  ContainerTag := default "latest" (opts !! "ContainerTag")
|}.

(** ** Further views of the recorded calls *)

(** The calls to the collaborators, without the log entries. *)
Definition is_call (ev : Event) : bool :=
  match ev with
  | EvLog _ _ => false
  | _ => true
  end.

Definition calls (evs : list Event) : list Event := List.filter is_call evs.

Definition inspections (evs : list Event) : list (Client * string) :=
  omap (fun ev => match ev with
                  | EvInspectContainer c i => Some (c, i)
                  | _ => None
                  end) evs.

Definition pulls (evs : list Event) : list (Client * PullImageOptions) :=
  omap (fun ev => match ev with
                  | EvPullImage c o => Some (c, o)
                  | _ => None
                  end) evs.

(** The container ids that start, inspect and remove calls are about. *)
Definition touched (evs : list Event) : list string :=
  omap (fun ev => match ev with
                  | EvStartContainer _ i _ => Some i
                  | EvInspectContainer _ i => Some i
                  | EvRemoveContainer _ o => Some (RmID o)
                  | _ => None
                  end) evs.

(** The connections closed, in order; [inl] is the HTTP client
    connection, [inr] the socket under it. *)
Definition closings (evs : list Event) : list (Conn + Conn) :=
  omap (fun ev => match ev with
                  | EvClientConnClose c => Some (inl c)
                  | EvConnClose c => Some (inr c)
                  | _ => None
                  end) evs.

(** The runtime [rt] with another handler for the removal. *)
Definition with_removal {World : Type} (rt : Runtime World)
    (h : Client -> RemoveContainerOptions -> World -> option error * World)
    : Runtime World := {|
  NewClient := NewClient rt;
  PullImage := PullImage rt;
  CreateContainer := CreateContainer rt;
  StartContainer := StartContainer rt;
  InspectContainer := InspectContainer rt;
  RemoveContainer := h;
  Sleep := Sleep rt;
  NewRequest := NewRequest rt;
  Dial := Dial rt;
  Do := Do rt;
  ClientConnClose := ClientConnClose rt;
  ConnClose := ConnClose rt
|}.

(** What [getLogs] returns for a result of [stdCopy]. *)
Definition classify (r : (list byte * list byte) * (Z * option error))
    : string * option error :=
  match r with
  | (_, (_, Some e)) => ("", Some e)
  | ((stdout, stderr), (_, None)) =>
      match stderr with
      | [] => (string_of_bytes stdout, None)
      | _ :: _ => (string_of_bytes stderr, Some ErrCommandResponse)
      end
  end.

(** ** A host without a daemon *)

Module Offline.
(** No client can be made, and nothing answers. *)
Definition down : error := ErrExternal "invalid endpoint".

Definition runtime : Runtime unit := {|
  NewClient := fun _ => Err down;
  PullImage := fun _ _ w => (Some down, w);
  CreateContainer := fun _ _ w => (Err down, w);
  StartContainer := fun _ _ _ w => (Some down, w);
  InspectContainer := fun _ _ w => (Err down, w);
  RemoveContainer := fun _ _ w => (Some down, w);
  Sleep := fun _ w => w;
  NewRequest := fun _ _ => Err down;
  Dial := fun _ _ w => (Err down, w);
  Do := fun _ _ w => (Err down, w);
  ClientConnClose := fun _ w => w;
  ConnClose := fun _ w => w
|}.

Definition store : Store unit :=
  mkStore tt (mkCmdConfig "/old" "tcp://old:1" "old/image" "old") None.
End Offline.

(** ** A scripted runtime *)

Module Scripted.
(** What each call answers; the answers of successive inspections are
    taken from [on_inspect], and the container has finished once they
    are used up. *)
Record Script : Type := mkScript {
  on_create : result Container;
  on_start : option error;
  on_inspect : list (result ContainerInfo);
  on_remove : option error;
  on_dial : result Conn;
  on_do : result Response
}.

Definition finished : ContainerInfo := mkInfo (mkState 1%Z).
Definition pending : ContainerInfo := mkInfo (mkState 0%Z).

Definition inspect (w : Script) : result ContainerInfo * Script :=
  match on_inspect w with
  | [] => (Ok finished, w)
  | r :: rs =>
      (r, mkScript (on_create w) (on_start w) rs (on_remove w)
                   (on_dial w) (on_do w))
  end.

Definition runtime : Runtime Script := {|
  NewClient := fun e => Ok (mkClient e);
  PullImage := fun _ _ w => (None, w);
  CreateContainer := fun _ _ w => (on_create w, w);
  StartContainer := fun _ _ _ w => (on_start w, w);
  InspectContainer := fun _ _ w => inspect w;
  RemoveContainer := fun _ _ w => (on_remove w, w);
  Sleep := fun _ w => w;
  NewRequest := fun m p => Ok (mkRequest m p []);
  Dial := fun _ _ w => (on_dial w, w);
  Do := fun _ _ w => (on_do w, w);
  ClientConnClose := fun _ w => w;
  ConnClose := fun _ w => w
|}.

Definition bytes (s : string) : list byte := String.list_byte_of_string s.

Definition frame (t : StdType) (s : string) : Frame :=
  mkFrame t (x00, x00, x00) (bytes s).

(** A run in which every call succeeds and the log stream is [body]. *)
Definition replying (body : list byte) : Script := {|
  on_create := Ok (mkContainer "c0ffee");
  on_start := None;
  on_inspect := [Ok pending; Ok pending];
  on_remove := None;
  on_dial := Ok (mkConn 3);
  on_do := Ok (mkResponse 200 body)
|}.

Definition script (fs : list Frame) : Script := replying (encode fs).

(** The daemon does not listen on its socket. *)
Definition refusing : Script := {|
  on_create := Ok (mkContainer "c0ffee");
  on_start := None;
  on_inspect := [];
  on_remove := None;
  on_dial :=
    Err (ErrExternal
           "dial unix /var/run/docker.sock: connect: connection refused");
  on_do := Err (ErrExternal "unreachable")
|}.

(** A stderr frame that announces five bytes and carries two. *)
Definition cut_short : list byte :=
  [x02; x00; x00; x00; x00; x00; x00; x05] ++ bytes "bo".

Definition client : Client := mkClient "tcp://10.0.0.7:2375".

Definition settings : CmdConfig := {|
  CommandsDir := "/opt/scripts";
  DockerEndpoint := "tcp://10.0.0.7:2375";
  ContainerRepository := "acme/runner";
  ContainerTag := "v2"
|}.

Definition store (w : Script) : Store Script :=
  mkStore w settings (Some client).

Definition backup : Cmd := mkCmd "backup" (Some client).
End Scripted.

(** * Properties *)

(** ** The frame format *)

Lemma to_N_byte_of_N (n : N) : Byte.to_N (byte_of_N n) = (n mod 256)%N.
Proof.
  unfold byte_of_N.
  destruct (Byte.of_N (n mod 256)) as [b|] eqn:E; simpl.
  - by apply Byte.to_of_N.
  - apply Byte.of_N_None_iff in E.
    pose proof (N.mod_upper_bound n 256). lia.
Qed.

Lemma be32_decode_be32 (n : N) :
  (n < 4294967296)%N ->
  be32_decode (byte_of_N (n / 16777216)) (byte_of_N (n / 65536))
              (byte_of_N (n / 256)) (byte_of_N n) = n.
Proof.
  intros Hn. unfold be32_decode. rewrite !to_N_byte_of_N.
  zify. Z.to_euclidean_division_equations. lia.
Qed.

Lemma std_type_discriminator (t : StdType) :
  std_type (discriminator t) = Some t.
Proof. by destruct t. Qed.

(** Reading one well-formed frame appends its payload to the buffer of
    its stream and goes on with what follows it. *)
Lemma stdCopy_from_frame fuel written dstout dsterr f rest :
  well_formed f ->
  stdCopy_from (S fuel) written dstout dsterr (encode_frame f ++ rest) =
  stdCopy_from fuel (written + Z.of_nat (length (fr_payload f)))
    (dstout ++ payloads Stdout [f]) (dsterr ++ payloads Stderr [f]) rest.
Proof.
  intros Hwf. destruct f as [t [[p1 p2] p3] payload].
  unfold well_formed in Hwf. simpl in Hwf.
  unfold encode_frame, be32. cbn [fr_type fr_pad fr_payload fst snd app].
  cbn [stdCopy_from]. rewrite std_type_discriminator.
  rewrite be32_decode_be32 by done. rewrite Nat2N.id.
  assert (Hfit : length payload <= length (payload ++ rest))
    by (rewrite length_app; lia).
  rewrite decide_True by done.
  rewrite take_app_length, drop_app_length.
  unfold payloads.
  destruct t; cbn [List.filter is_type fr_type map concat fr_payload];
    by rewrite !app_nil_r.
Qed.

Lemma payloads_cons t f fs :
  payloads t (f :: fs) = payloads t [f] ++ payloads t fs.
Proof.
  unfold payloads. cbn [List.filter].
  destruct (is_type t f); cbn [map concat]; by rewrite ?app_nil_r.
Qed.

Lemma stdCopy_from_frames fs : forall fuel written dstout dsterr rest,
  Forall well_formed fs ->
  stdCopy_from (length fs + fuel) written dstout dsterr (encode fs ++ rest) =
  stdCopy_from fuel (written + total_payload fs)
    (dstout ++ payloads Stdout fs) (dsterr ++ payloads Stderr fs) rest.
Proof.
  induction fs as [|f fs IH]; intros fuel written dstout dsterr rest Hwf.
  - cbn [length encode map concat app total_payload foldr payloads
         List.filter Nat.add].
    by rewrite !app_nil_r, Z.add_0_r.
  - apply Forall_cons in Hwf as [Hf Hfs].
    unfold encode. cbn [map concat length Nat.add].
    rewrite <- app_assoc. rewrite stdCopy_from_frame by done.
    fold (encode fs). rewrite IH by done.
    rewrite (payloads_cons Stdout f fs), (payloads_cons Stderr f fs).
    rewrite !app_assoc. f_equal. unfold total_payload. cbn [foldr]. lia.
Qed.

Lemma length_encode_frame f : 8 <= length (encode_frame f).
Proof. unfold encode_frame, be32. cbn [length app]. lia. Qed.

Lemma length_encode fs : length fs <= length (encode fs).
Proof.
  induction fs as [|f fs IH]; [done|].
  unfold encode. cbn [map concat length]. rewrite length_app.
  fold (encode fs). pose proof (length_encode_frame f). lia.
Qed.

Lemma stdCopy_from_malformed fuel written dstout dsterr bad why :
  Malformed bad why ->
  stdCopy_from fuel written dstout dsterr bad =
  ((dstout, dsterr), (0%Z, Some (ErrDecode why))).
Proof.
  intros [d p1 p2 p3 b4 b5 b6 b7 rest Hd|t p1 p2 p3 b4 b5 b6 b7 rest Hlen].
  - destruct fuel; cbn [stdCopy_from]; by rewrite Hd.
  - destruct fuel; cbn [stdCopy_from]; rewrite std_type_discriminator;
      by rewrite decide_False by lia.
Qed.

(** The fuel of [stdCopy] is never spent: any fuel from the length of the
    source on gives the same result. *)
Lemma stdCopy_from_fuel n : forall src fuel fuel' written dstout dsterr,
  length src <= n -> length src <= fuel -> length src <= fuel' ->
  stdCopy_from fuel written dstout dsterr src =
  stdCopy_from fuel' written dstout dsterr src.
Proof.
  induction n as [|n IH]; intros src fuel fuel' written dstout dsterr Hn Hf Hf'.
  - destruct src; [|cbn in Hn; lia]. by destruct fuel, fuel'.
  - destruct src as [|d [|p1 [|p2 [|p3 [|b4 [|b5 [|b6 [|b7 rest]]]]]]]];
      try (by destruct fuel, fuel').
    cbn [length] in Hn, Hf, Hf'.
    destruct fuel as [|fuel]; [lia|]. destruct fuel' as [|fuel']; [lia|].
    cbn [stdCopy_from]. destruct (std_type d) as [t|]; [|done].
    case_decide; [|done].
    destruct t; apply IH; rewrite length_drop; lia.
Qed.

Lemma stdCopy_malformed fs bad why dstout dsterr :
  Forall well_formed fs ->
  Malformed bad why ->
  stdCopy dstout dsterr (encode fs ++ bad) =
  ((dstout ++ payloads Stdout fs, dsterr ++ payloads Stderr fs),
   (0%Z, Some (ErrDecode why))).
Proof.
  intros Hwf Hbad. unfold stdCopy.
  pose proof (length_encode fs) as Hlen.
  replace (length (encode fs ++ bad))
    with (length fs + (length (encode fs ++ bad) - length fs))
    by (rewrite length_app; lia).
  rewrite stdCopy_from_frames by done.
  by apply stdCopy_from_malformed.
Qed.

(** C3: a stream of well-formed frames (a discriminator byte, 1 for stdout
    and 2 for stderr, three padding bytes, the payload length as four
    big-endian bytes, then the payload) is demultiplexed without error:
    each payload is appended to the buffer its discriminator selects, in
    the order of the frames. *)
Theorem stdCopy_demultiplexes (fs : list Frame) (dstout dsterr : list byte) :
  Forall well_formed fs ->
  stdCopy dstout dsterr (encode fs) =
  ((dstout ++ payloads Stdout fs, dsterr ++ payloads Stderr fs),
   (total_payload fs, None)).
Proof.
  intros Hwf. unfold stdCopy.
  pose proof (length_encode fs) as Hlen.
  replace (length (encode fs))
    with (length fs + (length (encode fs) - length fs)) by lia.
  rewrite <- (app_nil_r (encode fs)) at 2.
  rewrite stdCopy_from_frames by done.
  by destruct (length (encode fs) - length fs).
Qed.

(** The spec's example: frames (stdout, A), (stderr, B), (stdout, C) give
    stdout AC and stderr B. *)
Lemma stdCopy_demultiplexes_witness :
  Forall well_formed
    [Scripted.frame Stdout "A"; Scripted.frame Stderr "B"; Scripted.frame Stdout "C"] /\
  stdCopy [] []
    (encode [Scripted.frame Stdout "A"; Scripted.frame Stderr "B"; Scripted.frame Stdout "C"]) =
  ((Scripted.bytes "AC", Scripted.bytes "B"), (3%Z, None)).
Proof.
  assert (H : Forall well_formed
                [Scripted.frame Stdout "A"; Scripted.frame Stderr "B"; Scripted.frame Stdout "C"])
    by (repeat constructor).
  split; [exact H|].
  exact (stdCopy_demultiplexes _ [] [] H).
Defined.

(** ** Calls made by the package functions *)

Lemma omap_none {A B} (f : A -> option B) (l : list A) :
  Forall (fun x => f x = None) l -> omap f l = [].
Proof. induction 1 as [|x l Hx _ IH]; cbn; [done|]. by rewrite Hx. Qed.

Section Properties.
Context {World : Type} (rt : Runtime World).

(** Symbolic execution: the next call to a collaborator is split into
    its possible answers. *)
Ltac expose :=
  unfold log_Fatal, bind, defer, call, call_, ret, log, deref, panic,
    running, exit, read_config, write_config, read_client, write_client,
    after;
  cbn -[String.append stdCopy strings_Contains poll getLogs].

Ltac crunch :=
  expose;
  repeat (cbn -[String.append stdCopy strings_Contains poll getLogs];
          lazymatch goal with
          | |- context [NewRequest rt ?m ?p] =>
              destruct (NewRequest rt m p) as [?req|?e] eqn:?
          | |- context [Dial rt ?n ?a ?x] =>
              destruct (Dial rt n a x) as [[?conn|?e] ?w] eqn:?
          | |- context [Do rt ?c ?r ?x] =>
              destruct (Do rt c r x) as [[?resp|?e] ?w] eqn:?
          | |- context [stdCopy ?a ?b ?c] =>
              destruct (stdCopy a b c) as [[?out ?err] [?n [?e|]]] eqn:?
          | |- context [CreateContainer rt ?c ?o ?x] =>
              destruct (CreateContainer rt c o x) as [[?k|?e] ?w] eqn:?
          | |- context [StartContainer rt ?c ?i ?h ?x] =>
              destruct (StartContainer rt c i h x) as [[?e|] ?w] eqn:?
          | |- context [RemoveContainer rt ?c ?o ?x] =>
              destruct (RemoveContainer rt c o x) as [[?e|] ?w] eqn:?
          | |- context [InspectContainer rt ?c ?i ?x] =>
              destruct (InspectContainer rt c i x) as [[?info|?e] ?w] eqn:?
          | |- context [NewClient rt ?x] =>
              destruct (NewClient rt x) as [?cl|?e] eqn:?
          | |- context [PullImage rt ?c ?o ?x] =>
              destruct (PullImage rt c o x) as [[?e|] ?w] eqn:?
          end).

(** [getLogs] always returns; it creates, removes and sleeps nothing, and
    it dials the local socket once the request is built. *)
Lemma getLogs_calls client id s :
  (exists res, outcome (getLogs rt client id s) = Returns res) /\
  creations (emitted (getLogs rt client id s)) = [] /\
  removals (emitted (getLogs rt client id s)) = [] /\
  sleeps (emitted (getLogs rt client id s)) = [] /\
  config (final (getLogs rt client id s)) = config s.
Proof.
  unfold getLogs, makeRequest.
  crunch; try (destruct err); cbn -[String.append]; eauto 10.
Qed.

Lemma poll_calls fuel cl id : forall s,
  match outcome (poll rt fuel (Some cl) id s) with
  | Returns _ | Running => True
  | Exits | Panics => False
  end /\
  creations (emitted (poll rt fuel (Some cl) id s)) = [] /\
  removals (emitted (poll rt fuel (Some cl) id s)) = [] /\
  Forall (fun d => d = poll_interval)
         (sleeps (emitted (poll rt fuel (Some cl) id s))) /\
  config (final (poll rt fuel (Some cl) id s)) = config s.
Proof.
  induction fuel as [|fuel IH]; intros s; [by cbn|].
  cbn [poll]. crunch; [|by cbn].
  destruct (negb (Time_Equal (FinishedAt (State info)) nilTime));
    [by cbn|].
  cbn -[poll].
  match goal with |- context [poll rt fuel _ _ ?x] => specialize (IH x) end.
  destruct (poll rt fuel (Some cl) id _) as [[stop| | |] s1 ev1];
    cbn in IH |- *; destruct IH as (? & ? & ? & ? & ?);
    repeat split; auto.
Qed.

Ltac poll_step :=
  match goal with
  | |- context [poll rt ?f (Some ?c0) ?i ?x] =>
      let Hp := fresh "Hp" in
      pose proof (poll_calls f c0 i x) as Hp;
      destruct (poll rt f (Some c0) i x) as [[[?stop|]| | |] ?s ?ev];
      cbn in Hp; destruct Hp as (? & ? & ? & ? & ?); try done
  end.

Ltac logs_step :=
  match goal with
  | |- context [getLogs rt ?c0 ?i ?x] =>
      let Hl := fresh "Hl" in
      pose proof (getLogs_calls c0 i x) as Hl;
      destruct (getLogs rt c0 i x) as [?o ?s ?ev];
      cbn in Hl; destruct Hl as ([[?logs [?e|]] ->] & ? & ? & ? & ?)
  end.

(** The shape of every run of [Run] through a non-nil client. *)
Lemma Run_shape fuel c cl args s :
  dockerClient c = Some cl ->
  creations (emitted (Run rt fuel c args s)) =
    [(cl, create_options (config s) (op c) args)] /\
  Forall (fun d => d = poll_interval)
         (sleeps (emitted (Run rt fuel c args s))) /\
  match (CreateContainer rt cl (create_options (config s) (op c) args)
                         (world s)).1 with
  | Err e =>
      outcome (Run rt fuel c args s) = Returns ("", Some e) /\
      removals (emitted (Run rt fuel c args s)) = []
  | Ok k =>
      match outcome (Run rt fuel c args s) with
      | Returns (out, err) =>
          removals (emitted (Run rt fuel c args s)) =
            [(cl, forced_removal (ID k))] /\
          (is_Some err -> out = "")
      | Running => removals (emitted (Run rt fuel c args s)) = []
      | Exits | Panics => False
      end
  end.
Proof.
  intros Hc.
  unfold Run, createContainer, startContainer, removeContainer,
    create_options, command_line, image_reference.
  rewrite Hc.
  repeat first [progress crunch | poll_step | logs_step].
  all: unfold creations, removals, sleeps, poll_interval in *.
  all: cbn -[String.append]; rewrite ?omap_app.
  all: repeat match goal with H : omap _ _ = [] |- _ => rewrite H; clear H end.
  all: cbn -[String.append]; rewrite ?Forall_app; repeat split; auto.
  all: try by intros [? ?].
Qed.
(** Through a nil client the first method call panics. *)
Lemma Run_nil_client fuel c args s :
  dockerClient c = None ->
  outcome (Run rt fuel c args s) = Panics.
Proof.
  intros Hc. unfold Run, createContainer. rewrite Hc. by crunch.
Qed.

(** ** Termination of the completion poll *)

Lemma poll_more_fuel fuel n client id : forall s,
  outcome (poll rt fuel client id s) <> Running ->
  poll rt (fuel + n) client id s = poll rt fuel client id s.
Proof.
  induction fuel as [|fuel IH]; intros s Hs; [by cbn in Hs|].
  cbn [Nat.add poll] in Hs |- *. revert Hs.
  destruct client as [cl|]; [|by crunch].
  crunch; [|done].
  destruct (negb (Time_Equal (FinishedAt (State info)) nilTime)); [done|].
  cbn -[poll]. intros Hs. rewrite IH; [done|].
  intros Hr. apply Hs. by destruct (poll rt fuel _ _ _) as [[]]; cbn in *.
Qed.

Lemma poll_settles fuel cl id : forall s,
  settles rt fuel cl id (world s) ->
  outcome (poll rt fuel (Some cl) id s) <> Running.
Proof.
  induction fuel as [|fuel IH]; intros s Hs; [done|].
  cbn [poll settles] in Hs |- *. revert Hs.
  crunch; [|done].
  destruct (Time_Equal (FinishedAt (State info)) nilTime); [|done].
  cbn -[poll]. intros Hs.
  match goal with
  | |- context [poll rt fuel _ _ ?x] => specialize (IH x Hs)
  end.
  by destruct (poll rt fuel _ _ _) as [[]]; cbn in *.
Qed.

(** Once the container was created and started, [Run] returns as soon
    as the fuel covers the inspections the poll needs. *)
Lemma Run_returns fuel c cl args s k w1 w2 :
  dockerClient c = Some cl ->
  CreateContainer rt cl (create_options (config s) (op c) args) (world s)
    = (Ok k, w1) ->
  StartContainer rt cl (ID k) EmptyHostConfig w1 = (None, w2) ->
  settles rt fuel cl (ID k) w2 ->
  exists res, outcome (Run rt fuel c args s) = Returns res.
Proof.
  intros Hc Hk Hst Hs.
  unfold Run, createContainer, startContainer, removeContainer.
  rewrite Hc. unfold create_options, command_line, image_reference in Hk.
  expose. rewrite Hk. expose. rewrite Hst. expose.
  match goal with
  | |- context [poll rt fuel _ _ ?x] =>
      pose proof (poll_settles fuel cl (ID k) x Hs) as Hp;
      pose proof (poll_calls fuel cl (ID k) x) as (Ho & _)
  end.
  destruct (poll rt fuel _ _ _) as [[[stop|]| | |] s1 ev1];
    cbn in Hp, Ho; try done.
  all: repeat first [progress crunch | logs_step]; eauto.
Qed.

(** ** The life cycle of the container *)

(** C1: when the creation of the container fails, [Run] returns the
    creation error at once and removes nothing.  When it succeeds, [Run]
    either is still polling, with no removal so far, or has returned,
    and then on every path exactly one removal was asked for: that of
    the created container, forced and without its volumes. *)
Theorem Run_removes_created_container fuel c cl args s :
  dockerClient c = Some cl ->
  match (CreateContainer rt cl (create_options (config s) (op c) args)
                         (world s)).1 with
  | Err e =>
      outcome (Run rt fuel c args s) = Returns ("", Some e) /\
      removals (emitted (Run rt fuel c args s)) = []
  | Ok k =>
      match outcome (Run rt fuel c args s) with
      | Returns _ =>
          removals (emitted (Run rt fuel c args s)) =
            [(cl, {| RmID := ID k; RemoveVolumes := false;
                     Force := true |})]
      | Running => removals (emitted (Run rt fuel c args s)) = []
      | Exits | Panics => False
      end
  end.
Proof.
  intros Hc. destruct (Run_shape fuel c cl args s Hc) as (_ & _ & H).
  destruct (CreateContainer rt cl _ (world s)).1; [|done].
  destruct (outcome (Run rt fuel c args s)) as [[out err]| | |];
    try done.
  by destruct H.
Qed.

(** C6: the one container [Run] creates is made from the image
    repository:tag of the configuration, with the command line bash,
    commandsDir/op.sh and then the caller's arguments as they are. *)
Theorem Run_command_line fuel c cl args s :
  dockerClient c = Some cl ->
  creations (emitted (Run rt fuel c args s)) =
    [(cl, {| Config := {|
        Image := ContainerRepository (config s) +:+ ":"
                 +:+ ContainerTag (config s);
        DCmd := ["bash"; CommandsDir (config s) +:+ "/" +:+ op c +:+ ".sh"]
                ++ args |} |})].
Proof.
  intros Hc. by destruct (Run_shape fuel c cl args s Hc) as (H & _).
Qed.

(** C10: whenever [Run] returns an error, the text it returns with it is
    empty; this includes [ErrCommandResponse], whose stderr text
    [getLogs] had returned. *)
Theorem Run_error_has_empty_output fuel c args s out e :
  outcome (Run rt fuel c args s) = Returns (out, Some e) ->
  out = "".
Proof.
  intros Hr. destruct (dockerClient c) as [cl|] eqn:Hc.
  - destruct (Run_shape fuel c cl args s Hc) as (_ & _ & H).
    destruct (CreateContainer rt cl _ (world s)).1.
    + rewrite Hr in H. destruct H as [_ H]. by apply H.
    + destruct H as [H _]. congruence.
  - by rewrite Run_nil_client in Hr.
Qed.

(** Every pause of the poll lasts [poll_interval] nanoseconds. *)
Lemma Run_sleeps fuel c cl args s :
  dockerClient c = Some cl ->
  Forall (fun d => d = 1000100%Z) (sleeps (emitted (Run rt fuel c args s))).
Proof.
  intros Hc. by destruct (Run_shape fuel c cl args s Hc) as (_ & H & _).
Qed.
(** ** Retrieval of the logs *)

Lemma makeRequest_dials method path s :
  dials (emitted (makeRequest rt method path s)) =
  match NewRequest rt method path with
  | Ok _ => [("unix", "/var/run/docker.sock")]
  | Err _ => []
  end.
Proof. unfold makeRequest. by crunch. Qed.

(** C9: whatever the configuration and the client, and so whatever
    endpoint they name, [getLogs] connects to the unix socket
    /var/run/docker.sock, once, as soon as its request is built; what it
    asks and returns is the same under any other configuration and
    client. *)
Theorem getLogs_dials_fixed_socket client id s :
  dials (emitted (getLogs rt client id s)) =
    match NewRequest rt "GET" ("/containers/" +:+ id
                               +:+ "/logs?follow=0&stderr=1&stdout=1") with
    | Ok _ => [("unix", "/var/run/docker.sock")]
    | Err _ => []
    end /\
  forall client' config' global',
    let s' := mkStore (world s) config' global' in
    emitted (getLogs rt client' id s') = emitted (getLogs rt client id s) /\
    outcome (getLogs rt client' id s') = outcome (getLogs rt client id s).
Proof.
  split.
  - unfold getLogs, makeRequest. crunch; try destruct err; by cbn.
  - intros client' config' global' s'. subst s'.
    unfold getLogs, makeRequest. crunch; try destruct err; by cbn.
Qed.

(** When the transport delivers a body, [getLogs] hands on what
    [stdCopy] makes of it. *)
Lemma getLogs_decodes client id s req conn w1 resp w2 :
  NewRequest rt "GET" ("/containers/" +:+ id
                       +:+ "/logs?follow=0&stderr=1&stdout=1") = Ok req ->
  Dial rt "unix" "/var/run/docker.sock" (world s) = (Ok conn, w1) ->
  Do rt conn (Header_Set "User-Agent" "go-dockerclient" req) w1
    = (Ok resp, w2) ->
  outcome (getLogs rt client id s) =
  Returns
    match stdCopy [] [] (Body resp) with
    | (_, (_, Some e)) => ("", Some e)
    | ((stdout, stderr), (_, None)) =>
        if decide (length stderr ≠ 0)
        then (string_of_bytes stderr, Some ErrCommandResponse)
        else (string_of_bytes stdout, None)
    end.
Proof.
  intros Hreq Hdial Hdo. unfold getLogs, makeRequest.
  rewrite Hreq. expose. rewrite Hdial. expose. rewrite Hdo. expose.
  destruct (stdCopy [] [] (Body resp)) as [[out err] [n [e|]]];
    [done|]. by destruct err.
Qed.

(** C4: a stream of well-formed frames followed by a frame whose
    discriminator is neither 1 nor 2, or whose declared length exceeds
    the bytes that remain, makes [stdCopy] return a decode error, and
    [getLogs] returns that error with no output. *)
Theorem getLogs_propagates_decode_error fs bad why
    client id s req conn w1 resp w2 :
  Forall well_formed fs ->
  Malformed bad why ->
  NewRequest rt "GET" ("/containers/" +:+ id
                       +:+ "/logs?follow=0&stderr=1&stdout=1") = Ok req ->
  Dial rt "unix" "/var/run/docker.sock" (world s) = (Ok conn, w1) ->
  Do rt conn (Header_Set "User-Agent" "go-dockerclient" req) w1
    = (Ok resp, w2) ->
  Body resp = encode fs ++ bad ->
  (stdCopy [] [] (encode fs ++ bad)).2.2 = Some (ErrDecode why) /\
  outcome (getLogs rt client id s) = Returns ("", Some (ErrDecode why)).
Proof.
  intros Hwf Hbad Hreq Hdial Hdo Hbody.
  pose proof (stdCopy_malformed fs bad why [] [] Hwf Hbad) as Hcopy.
  split; [by rewrite Hcopy|].
  rewrite (getLogs_decodes _ _ _ _ _ _ _ _ Hreq Hdial Hdo).
  by rewrite Hbody, Hcopy.
Qed.
(** ** Configuration *)

Lemma default_entry key dflt :
  cmdConfigDefaultOpts !! key = Some dflt ->
  (key, dflt) = ("CommandsDir", "/root/commands") \/
  (key, dflt) = ("DockerEndpoint", "unix:///var/run/docker.sock") \/
  (key, dflt) = ("ContainerRepository", "freighterio/cmd") \/
  (key, dflt) = ("ContainerTag", "latest").
Proof.
  unfold cmdConfigDefaultOpts. rewrite !lookup_insert, lookup_empty.
  repeat case_decide; naive_solver.
Qed.

Lemma SetString_CommandsDir v c :
  SetString "CommandsDir" v c =
  Some (mkCmdConfig v (DockerEndpoint c) (ContainerRepository c)
                    (ContainerTag c)).
Proof. reflexivity. Qed.

Lemma SetString_DockerEndpoint v c :
  SetString "DockerEndpoint" v c =
  Some (mkCmdConfig (CommandsDir c) v (ContainerRepository c)
                    (ContainerTag c)).
Proof. reflexivity. Qed.

Lemma SetString_ContainerRepository v c :
  SetString "ContainerRepository" v c =
  Some (mkCmdConfig (CommandsDir c) (DockerEndpoint c) v (ContainerTag c)).
Proof. reflexivity. Qed.

Lemma SetString_ContainerTag v c :
  SetString "ContainerTag" v c =
  Some (mkCmdConfig (CommandsDir c) (DockerEndpoint c)
                    (ContainerRepository c) v).
Proof. reflexivity. Qed.

(** The loop leaves the effective configuration when every field is
    either assigned by one of the entries or right already. *)
Lemma range_defaults_sets entries opts : forall s : Store World,
  (forall key dflt,
     (key, dflt) ∈ entries -> cmdConfigDefaultOpts !! key = Some dflt) ->
  "CommandsDir" ∈ entries.*1 \/
    CommandsDir (config s) = CommandsDir (effective_config opts) ->
  "DockerEndpoint" ∈ entries.*1 \/
    DockerEndpoint (config s) = DockerEndpoint (effective_config opts) ->
  "ContainerRepository" ∈ entries.*1 \/
    ContainerRepository (config s)
    = ContainerRepository (effective_config opts) ->
  "ContainerTag" ∈ entries.*1 \/
    ContainerTag (config s) = ContainerTag (effective_config opts) ->
  range_defaults entries opts s =
  mkRun (Returns tt)
        (mkStore (world s) (effective_config opts) (globalDockerClient s))
        [].
Proof.
  induction entries as [|[key dflt] entries IH]; intros s Hdef H1 H2 H3 H4.
  - destruct H1 as [H1|H1]; [by apply elem_of_nil in H1|].
    destruct H2 as [H2|H2]; [by apply elem_of_nil in H2|].
    destruct H3 as [H3|H3]; [by apply elem_of_nil in H3|].
    destruct H4 as [H4|H4]; [by apply elem_of_nil in H4|].
    destruct s as [w [a b c d] g]. cbn in *. by subst.
  - assert (Hrest : forall k d, (k, d) ∈ entries ->
                      cmdConfigDefaultOpts !! k = Some d)
      by (intros k d Hk; apply Hdef; by right).
    assert (Hkey := Hdef key dflt ltac:(by left)).
    rewrite fmap_cons, !elem_of_cons in H1, H2, H3, H4. cbn [fst] in *.
    apply default_entry in Hkey as [Hk|[Hk|[Hk|Hk]]];
      injection Hk as -> ->; cbn [range_defaults]; expose;
      rewrite ?SetString_CommandsDir, ?SetString_DockerEndpoint,
        ?SetString_ContainerRepository, ?SetString_ContainerTag;
      (rewrite IH; [done|done|..]); cbn;
      try (by right);
      match goal with
      | H : (_ \/ ?P) \/ _ |- ?P \/ _ =>
          destruct H as [[?|?]|?]; [done|by left|by right]
      end.
Qed.

(** C7: after [InitCmdContainer], in whatever order the map of defaults
    is ranged over, every field of the configuration is the value given
    for its key in the options, and its default when the options lack
    the key; the tag is then latest. *)
Theorem InitCmdContainer_config entries opts s :
  entries ≡ₚ map_to_list cmdConfigDefaultOpts ->
  config (final (InitCmdContainer rt entries opts s)) =
  {| CommandsDir := default "/root/commands" (opts !! "CommandsDir");
     DockerEndpoint :=
       default "unix:///var/run/docker.sock" (opts !! "DockerEndpoint");
     ContainerRepository :=
       default "freighterio/cmd" (opts !! "ContainerRepository");
     ContainerTag := default "latest" (opts !! "ContainerTag") |}.
Proof.
  intros Hperm.
  assert (Hin : forall key dflt,
            cmdConfigDefaultOpts !! key = Some dflt ->
            key ∈ entries.*1).
  { intros key dflt Hk. apply list_elem_of_fmap. exists (key, dflt).
    split; [done|]. rewrite Hperm. by apply elem_of_map_to_list. }
  unfold InitCmdContainer, pullImage. expose.
  rewrite range_defaults_sets.
  - crunch; reflexivity.
  - intros key dflt Hk. rewrite Hperm in Hk.
    by apply elem_of_map_to_list in Hk.
  - left. by apply (Hin _ "/root/commands").
  - left. by apply (Hin _ "unix:///var/run/docker.sock").
  - left. by apply (Hin _ "freighterio/cmd").
  - left. by apply (Hin _ "latest").
Qed.

(** ** The transport of [makeRequest] *)

(** X1: every connection [makeRequest] dials is closed once before it
    returns, whatever happens to the request and to the decoding; the
    HTTP client connection is closed first, and only when the request was
    answered.  Without a connection nothing is closed. *)
Theorem makeRequest_closes_connection method path (s : Store World) :
  closings (emitted (makeRequest rt method path s)) =
  match NewRequest rt method path with
  | Err _ => []
  | Ok req =>
      match Dial rt "unix" "/var/run/docker.sock" (world s) with
      | (Err _, _) => []
      | (Ok conn, w1) =>
          match Do rt conn (Header_Set "User-Agent" "go-dockerclient" req)
                   w1 with
          | (Err _, _) => [inr conn]
          | (Ok _, _) => [inl conn; inr conn]
          end
      end
  end.
Proof. unfold makeRequest. by crunch. Qed.

(** X2: an error of [http.NewRequest], of [net.Dial] or of the round trip is
    returned as it is, with nil buffers and the status -1; after a failed
    [http.NewRequest] nothing is dialled. *)
Theorem makeRequest_transport_error method path (s : Store World) :
  match NewRequest rt method path with
  | Err e =>
      makeRequest rt method path s = mkRun (Returns ([], [], (-1)%Z, Some e)) s []
  | Ok req =>
      match Dial rt "unix" "/var/run/docker.sock" (world s) with
      | (Err e, _) =>
          outcome (makeRequest rt method path s)
          = Returns ([], [], (-1)%Z, Some e)
      | (Ok conn, w1) =>
          match Do rt conn (Header_Set "User-Agent" "go-dockerclient" req)
                   w1 with
          | (Err e, _) =>
              outcome (makeRequest rt method path s)
              = Returns ([], [], (-1)%Z, Some e)
          | (Ok resp, _) =>
              exists r, outcome (makeRequest rt method path s) = Returns r
          end
      end
  end.
Proof. unfold makeRequest. crunch; eauto. Qed.

(** X3: once the daemon answers, [getLogs] looks at the body only: the status
    code of the response has no part in what it returns.  A body that
    does not decode gives the decode error and no text; stderr bytes give
    the stderr text with [ErrCommandResponse], and the stdout text is
    dropped; otherwise the stdout text is returned with a nil error. *)
Theorem getLogs_ignores_status client id (s : Store World)
    req conn w1 code body w2 :
  NewRequest rt "GET" ("/containers/" +:+ id
                       +:+ "/logs?follow=0&stderr=1&stdout=1") = Ok req ->
  Dial rt "unix" "/var/run/docker.sock" (world s) = (Ok conn, w1) ->
  Do rt conn (Header_Set "User-Agent" "go-dockerclient" req) w1
    = (Ok (mkResponse code body), w2) ->
  outcome (getLogs rt client id s) = Returns (classify (stdCopy [] [] body)).
Proof.
  intros Hreq Hdial Hdo.
  rewrite (getLogs_decodes _ _ _ _ _ _ _ _ Hreq Hdial Hdo).
  cbn [Body classify].
  destruct (stdCopy [] [] body) as [[out err] [n [e|]]]; [done|].
  by destruct err.
Qed.

(** ** The removal *)

Lemma poll_with_removal h fuel client id : forall s : Store World,
  poll (with_removal rt h) fuel client id s = poll rt fuel client id s.
Proof.
  induction fuel as [|fuel IH]; intros s; [done|].
  cbn [poll]. destruct client as [cl|]; [|done].
  crunch; [|done].
  destruct (negb (Time_Equal (FinishedAt (State info)) nilTime)); [done|].
  cbn -[poll]. by rewrite IH.
Qed.

Lemma getLogs_with_removal h client id (s : Store World) :
  getLogs (with_removal rt h) client id s = getLogs rt client id s.
Proof. reflexivity. Qed.

(** X4: what [Run] returns does not depend on the answer to the removal: an
    error of the removal is logged and dropped. *)
Theorem Run_ignores_removal_result h fuel c args (s : Store World) :
  outcome (Run (with_removal rt h) fuel c args s)
  = outcome (Run rt fuel c args s).
Proof.
  unfold Run, createContainer, startContainer, removeContainer.
  destruct (dockerClient c) as [cl|]; [|by crunch].
  repeat first
    [ progress crunch
    | rewrite poll_with_removal
    | rewrite getLogs_with_removal
    | poll_step
    | logs_step
    | match goal with
      | |- context [h ?c0 ?o ?x] => destruct (h c0 o x) as [[?e|] ?w]
      end ];
    reflexivity.
Qed.

(** ** The order and the subject of the calls of [Run] *)

Lemma getLogs_trace client id (s : Store World) :
  (exists res, outcome (getLogs rt client id s) = Returns res) /\
  touched (emitted (getLogs rt client id s)) = [] /\
  inspections (emitted (getLogs rt client id s)) = [] /\
  sleeps (emitted (getLogs rt client id s)) = [].
Proof.
  unfold getLogs, makeRequest.
  crunch; try (destruct err); cbn -[String.append]; eauto 10.
Qed.

Lemma poll_trace fuel cl id : forall s : Store World,
  Forall (fun i => i = id) (touched (emitted (poll rt fuel (Some cl) id s))) /\
  length (inspections (emitted (poll rt fuel (Some cl) id s))) <= fuel /\
  match outcome (poll rt fuel (Some cl) id s) with
  | Returns _ =>
      length (inspections (emitted (poll rt fuel (Some cl) id s)))
      = S (length (sleeps (emitted (poll rt fuel (Some cl) id s))))
  | Running =>
      length (inspections (emitted (poll rt fuel (Some cl) id s)))
      = length (sleeps (emitted (poll rt fuel (Some cl) id s)))
  | Exits | Panics => False
  end.
Proof.
  induction fuel as [|fuel IH]; intros s; [by cbn|].
  cbn [poll]. crunch; [|cbn; repeat split; auto with lia].
  destruct (negb (Time_Equal (FinishedAt (State info)) nilTime));
    [cbn; repeat split; auto with lia|].
  cbn -[poll].
  match goal with |- context [poll rt fuel _ _ ?x] => specialize (IH x) end.
  destruct (poll rt fuel (Some cl) id _) as [[stop| | |] s1 ev1];
    cbn in IH |- *; destruct IH as (? & ? & ?);
    repeat split; auto with lia.
Qed.

Ltac poll_trace_step :=
  match goal with
  | |- context [poll rt ?f (Some ?c0) ?i ?x] =>
      let Hp := fresh "Hp" in
      pose proof (poll_trace f c0 i x) as Hp;
      destruct (poll rt f (Some c0) i x) as [[[?stop|]| | |] ?s ?ev];
      cbn in Hp; destruct Hp as (? & ? & ?); try done
  end.

Ltac logs_trace_step :=
  match goal with
  | |- context [getLogs rt ?c0 ?i ?x] =>
      let Hl := fresh "Hl" in
      pose proof (getLogs_trace c0 i x) as Hl;
      destruct (getLogs rt c0 i x) as [?o ?s ?ev];
      cbn in Hl; destruct Hl as ([[?logs [?e|]] ->] & ? & ? & ?)
  end.

Ltac run_cases Hc :=
  unfold Run, createContainer, startContainer, removeContainer,
    create_options, command_line, image_reference;
  rewrite Hc;
  repeat first [progress crunch | poll_trace_step | logs_trace_step].

(** X5: [Run] starts, inspects and removes no container but the one it has
    created; when the creation fails it starts, inspects and removes
    none. *)
Theorem Run_touches_created_container_only fuel c cl args (s : Store World) :
  dockerClient c = Some cl ->
  match (CreateContainer rt cl (create_options (config s) (op c) args)
                         (world s)).1 with
  | Ok k =>
      Forall (fun i => i = ID k) (touched (emitted (Run rt fuel c args s)))
  | Err _ => touched (emitted (Run rt fuel c args s)) = []
  end.
Proof.
  intros Hc. run_cases Hc.
  all: unfold touched in *; cbn -[String.append]; rewrite ?omap_app.
  all: repeat match goal with
         | H : omap _ _ = [] |- _ => rewrite H; clear H
         end.
  all: cbn -[String.append];
    rewrite ?Forall_cons, ?Forall_app, ?Forall_cons, ?Forall_nil;
    repeat split; auto.
Qed.


(** X7: of the calls [Run] makes to its collaborators the first is the
    creation of the container; when the container was created and [Run]
    has returned, the last is its removal. *)
Theorem Run_creates_first_removes_last fuel c cl args (s : Store World) :
  dockerClient c = Some cl ->
  head (calls (emitted (Run rt fuel c args s)))
  = Some (EvCreateContainer cl (create_options (config s) (op c) args)) /\
  forall k res,
    (CreateContainer rt cl (create_options (config s) (op c) args)
                     (world s)).1 = Ok k ->
    outcome (Run rt fuel c args s) = Returns res ->
    last (calls (emitted (Run rt fuel c args s)))
    = Some (EvRemoveContainer cl (forced_removal (ID k))).
Proof.
  intros Hc. run_cases Hc.
  all: split; [done|]; intros k' res Hk Hres; try done.
  all: injection Hk as <-.
  all: unfold calls; cbn -[String.append List.filter];
    rewrite ?List.filter_app; cbn -[String.append];
    rewrite ?last_cons, ?last_app; by cbn.
Qed.

(** X8: when the start of the created container fails, [Run] returns the
    error of the start with no text, whatever the fuel: it does not
    inspect the container, does not sleep and does not ask for the
    logs. *)
Theorem Run_start_failure fuel c cl args (s : Store World) k w1 e w2 :
  dockerClient c = Some cl ->
  CreateContainer rt cl (create_options (config s) (op c) args) (world s)
    = (Ok k, w1) ->
  StartContainer rt cl (ID k) EmptyHostConfig w1 = (Some e, w2) ->
  outcome (Run rt fuel c args s) = Returns ("", Some e) /\
  inspections (emitted (Run rt fuel c args s)) = [] /\
  sleeps (emitted (Run rt fuel c args s)) = [] /\
  dials (emitted (Run rt fuel c args s)) = [].
Proof.
  intros Hc Hk Hst.
  unfold Run, createContainer, startContainer, removeContainer.
  rewrite Hc. unfold create_options, command_line, image_reference in Hk.
  expose. rewrite Hk. expose. rewrite Hst. by crunch.
Qed.

(** ** When [Run] returns *)

Lemma poll_settled fuel cl id : forall s : Store World,
  outcome (poll rt fuel (Some cl) id s) <> Running ->
  settles rt fuel cl id (world s).
Proof.
  induction fuel as [|fuel IH]; intros s; [by cbn|].
  cbn [poll settles]. crunch; [|done].
  destruct (Time_Equal (FinishedAt (State info)) nilTime); [|done].
  cbn -[poll].
  match goal with
  | |- context [poll rt fuel _ _ ?x] => specialize (IH x)
  end.
  destruct (poll rt fuel _ _ _) as [[]]; cbn in IH |- *; intros Hs;
    by apply IH.
Qed.

(** X9: after the container was created and started, [Run] returns within
    [fuel] turns of its poll exactly when one of the first [fuel]
    inspections fails or reports a completion time other than the zero
    time; until then it keeps polling. *)
Theorem Run_returns_iff_poll_settles fuel c cl args (s : Store World)
    k w1 w2 :
  dockerClient c = Some cl ->
  CreateContainer rt cl (create_options (config s) (op c) args) (world s)
    = (Ok k, w1) ->
  StartContainer rt cl (ID k) EmptyHostConfig w1 = (None, w2) ->
  (exists res, outcome (Run rt fuel c args s) = Returns res) <->
  settles rt fuel cl (ID k) w2.
Proof.
  intros Hc Hk Hst. split; [|by apply Run_returns with w1].
  intros [res Hres]. revert Hres.
  unfold Run, createContainer, startContainer, removeContainer.
  rewrite Hc. unfold create_options, command_line, image_reference in Hk.
  expose. rewrite Hk. expose. rewrite Hst. expose.
  match goal with
  | |- context [poll rt fuel _ _ ?x] =>
      pose proof (poll_settled fuel cl (ID k) x) as Hp
  end.
  destruct (poll rt fuel _ _ _) as [[stop| | |] s1 ev1]; cbn in Hp |- *;
    intros Hres; try done; by apply Hp.
Qed.

(** ** Initialisation *)

Lemma range_defaults_of_defaults entries opts (s : Store World) :
  entries ≡ₚ map_to_list cmdConfigDefaultOpts ->
  range_defaults entries opts s =
  mkRun (Returns tt)
        (mkStore (world s) (effective_config opts) (globalDockerClient s)) [].
Proof.
  intros Hperm.
  assert (Hin : forall key dflt,
            cmdConfigDefaultOpts !! key = Some dflt -> key ∈ entries.*1).
  { intros key dflt Hk. apply list_elem_of_fmap. exists (key, dflt).
    split; [done|]. rewrite Hperm. by apply elem_of_map_to_list. }
  apply range_defaults_sets.
  - intros key dflt Hk. rewrite Hperm in Hk.
    by apply elem_of_map_to_list in Hk.
  - left. by apply (Hin _ "/root/commands").
  - left. by apply (Hin _ "unix:///var/run/docker.sock").
  - left. by apply (Hin _ "freighterio/cmd").
  - left. by apply (Hin _ "latest").
Qed.

(** X10: when no client can be made for the configured endpoint,
    [InitCmdContainer] ends the process: it calls nothing of the runtime,
    pulls no image and leaves the package's client as it was. *)
Theorem InitCmdContainer_fatal_without_client entries opts
    (s : Store World) e :
  entries ≡ₚ map_to_list cmdConfigDefaultOpts ->
  NewClient rt (DockerEndpoint (effective_config opts)) = Err e ->
  outcome (InitCmdContainer rt entries opts s) = Exits /\
  calls (emitted (InitCmdContainer rt entries opts s)) = [] /\
  globalDockerClient (final (InitCmdContainer rt entries opts s))
  = globalDockerClient s /\
  world (final (InitCmdContainer rt entries opts s)) = world s.
Proof.
  intros Hperm Hnew. unfold InitCmdContainer. expose.
  rewrite (range_defaults_of_defaults _ _ _ Hperm). expose.
  cbn -[String.append stdCopy strings_Contains poll getLogs] in Hnew.
  rewrite Hnew. by expose.
Qed.

(** X11: with a client for the configured endpoint, [InitCmdContainer] makes
    it the package's client and pulls, once, the repository and tag of
    the configuration it has just set; it returns when the pull succeeds
    and ends the process when the pull fails. *)
Theorem InitCmdContainer_pulls_configured_image entries opts
    (s : Store World) cl :
  entries ≡ₚ map_to_list cmdConfigDefaultOpts ->
  NewClient rt (DockerEndpoint (effective_config opts)) = Ok cl ->
  let image := {| Repository := ContainerRepository (effective_config opts);
                  Tag := ContainerTag (effective_config opts) |} in
  pulls (emitted (InitCmdContainer rt entries opts s)) = [(cl, image)] /\
  globalDockerClient (final (InitCmdContainer rt entries opts s)) = Some cl /\
  outcome (InitCmdContainer rt entries opts s) =
    match (PullImage rt cl image (world s)).1 with
    | None => Returns tt
    | Some _ => Exits
    end.
Proof.
  intros Hperm Hnew image. subst image.
  unfold InitCmdContainer, pullImage. expose.
  rewrite (range_defaults_of_defaults _ _ _ Hperm). expose.
  cbn -[String.append stdCopy strings_Contains poll getLogs] in Hnew.
  rewrite Hnew. by crunch.
Qed.

(** X12: initialisation, [NewCmd] and [Run] in a row: the container is created
    through the client of the configured endpoint, from the image and
    the commands directory the options stand for. *)
Theorem Run_after_InitCmdContainer entries opts op fuel args
    (s : Store World) cl w1 :
  entries ≡ₚ map_to_list cmdConfigDefaultOpts ->
  NewClient rt (DockerEndpoint (effective_config opts)) = Ok cl ->
  PullImage rt cl
    {| Repository := ContainerRepository (effective_config opts);
       Tag := ContainerTag (effective_config opts) |} (world s)
    = (None, w1) ->
  creations (emitted ((InitCmdContainer rt entries opts ;;
                       let* c := NewCmd op in Run rt fuel c args) s)) =
    [(cl, {| Config := {|
        Image := ContainerRepository (effective_config opts) +:+ ":"
                 +:+ ContainerTag (effective_config opts);
        DCmd := ["bash"; CommandsDir (effective_config opts) +:+ "/" +:+ op
                         +:+ ".sh"] ++ args |} |})].
Proof.
  intros Hperm Hnew Hpull.
  assert (Hinit : exists evs,
            InitCmdContainer rt entries opts s =
            mkRun (Returns tt) (mkStore w1 (effective_config opts) (Some cl))
                  evs /\ creations evs = []).
  { unfold InitCmdContainer, pullImage. expose.
    rewrite (range_defaults_of_defaults _ _ _ Hperm). expose.
    cbn -[String.append stdCopy strings_Contains poll getLogs] in Hnew, Hpull.
    rewrite Hnew. expose. rewrite Hpull. expose. eauto. }
  destruct Hinit as (evs & Hinit & Hevs).
  unfold bind at 1. rewrite Hinit. unfold NewCmd, bind, read_client, ret.
  cbn -[Run String.append].
  pose proof (Run_shape fuel (mkCmd op (Some cl)) cl args
                (mkStore w1 (effective_config opts) (Some cl)) eq_refl)
    as (Hcr & _).
  destruct (Run rt fuel _ args _) as [o s2 ev2]. cbn in Hcr |- *.
  unfold creations in *. by rewrite omap_app, Hevs, Hcr.
Qed.

(** X13: options that give the same values to the four keys of the
    configuration initialise the package alike: any other key of the
    options is ignored. *)
Theorem InitCmdContainer_ignores_other_keys entries opts opts'
    (s : Store World) :
  entries ≡ₚ map_to_list cmdConfigDefaultOpts ->
  (forall key, is_Some (cmdConfigDefaultOpts !! key) ->
               opts !! key = opts' !! key) ->
  InitCmdContainer rt entries opts s = InitCmdContainer rt entries opts' s.
Proof.
  intros Hperm Hsame.
  assert (Heff : effective_config opts = effective_config opts').
  { unfold effective_config.
    by rewrite !Hsame by (by eexists; vm_compute). }
  unfold InitCmdContainer. expose.
  rewrite !(range_defaults_of_defaults _ _ _ Hperm). by rewrite Heff.
Qed.
End Properties.

(** ** The properties on scripted runs *)

Lemma Run_removes_created_container_witness :
  dockerClient Scripted.backup = Some Scripted.client /\
  removals (emitted (Run Scripted.runtime 3 Scripted.backup ["a"]
                         (Scripted.store (Scripted.script
                            [Scripted.frame Stdout "hello"])))) =
    [(Scripted.client,
      {| RmID := "c0ffee"; RemoveVolumes := false; Force := true |})].
Proof.
  split; [reflexivity|].
  exact (Run_removes_created_container Scripted.runtime 3 Scripted.backup
           Scripted.client ["a"]
           (Scripted.store (Scripted.script [Scripted.frame Stdout "hello"]))
           eq_refl).
Defined.

Lemma Run_command_line_witness :
  dockerClient Scripted.backup = Some Scripted.client /\
  creations (emitted (Run Scripted.runtime 3 Scripted.backup ["a"; "b c"]
                          (Scripted.store (Scripted.script [])))) =
    [(Scripted.client,
      {| Config := {| Image := "acme/runner:v2";
                      DCmd := ["bash"; "/opt/scripts/backup.sh"; "a"; "b c"]
                   |} |})].
Proof.
  split; [reflexivity|].
  exact (Run_command_line Scripted.runtime 3 Scripted.backup
           Scripted.client ["a"; "b c"]
           (Scripted.store (Scripted.script [])) eq_refl).
Defined.

Lemma Run_error_has_empty_output_witness :
  outcome (Run Scripted.runtime 3 Scripted.backup []
               (Scripted.store (Scripted.script
                  [Scripted.frame Stderr "boom"]))) =
    Returns ("", Some ErrCommandResponse) /\
  "" = "".
Proof.
  split; [reflexivity|].
  exact (Run_error_has_empty_output Scripted.runtime 3 Scripted.backup []
           (Scripted.store (Scripted.script [Scripted.frame Stderr "boom"]))
           "" ErrCommandResponse eq_refl).
Defined.

Lemma getLogs_propagates_decode_error_witness :
  Forall well_formed [Scripted.frame Stdout "A"] /\
  Malformed Scripted.cut_short TruncatedFrame /\
  (stdCopy [] [] (encode [Scripted.frame Stdout "A"] ++ Scripted.cut_short)).2.2
    = Some (ErrDecode TruncatedFrame) /\
  outcome (getLogs Scripted.runtime (Some Scripted.client) "c0ffee"
             (Scripted.store (Scripted.replying
                (encode [Scripted.frame Stdout "A"] ++ Scripted.cut_short))))
    = Returns ("", Some (ErrDecode TruncatedFrame)).
Proof.
  assert (Hwf : Forall well_formed [Scripted.frame Stdout "A"])
    by (repeat constructor).
  assert (Hbad : Malformed Scripted.cut_short TruncatedFrame).
  { apply (malformed_truncated Stderr). vm_compute. lia. }
  split; [exact Hwf|]. split; [exact Hbad|].
  exact (getLogs_propagates_decode_error Scripted.runtime
           [Scripted.frame Stdout "A"] Scripted.cut_short TruncatedFrame
           (Some Scripted.client) "c0ffee"
           (Scripted.store (Scripted.replying
              (encode [Scripted.frame Stdout "A"] ++ Scripted.cut_short)))
           _ _ _ _ _ Hwf Hbad eq_refl eq_refl eq_refl eq_refl).
Defined.

Lemma InitCmdContainer_config_witness :
  reverse (map_to_list cmdConfigDefaultOpts)
    ≡ₚ map_to_list cmdConfigDefaultOpts /\
  config (final (InitCmdContainer Scripted.runtime
                   (reverse (map_to_list cmdConfigDefaultOpts))
                   {["CommandsDir" := "/srv/cmd"]}
                   (Scripted.store (Scripted.script [])))) =
    {| CommandsDir := "/srv/cmd";
       DockerEndpoint := "unix:///var/run/docker.sock";
       ContainerRepository := "freighterio/cmd";
       ContainerTag := "latest" |}.
Proof.
  split; [apply reverse_Permutation|].
  exact (InitCmdContainer_config Scripted.runtime
           (reverse (map_to_list cmdConfigDefaultOpts))
           {["CommandsDir" := "/srv/cmd"]}
           (Scripted.store (Scripted.script []))
           (reverse_Permutation (map_to_list cmdConfigDefaultOpts))).
Defined.

(** Removal on each way out of [Run] after a successful creation. *)
Example removal_after_start_failure :
  let w := Scripted.mkScript (Ok (mkContainer "c0ffee"))
             (Some (ErrExternal "no such image")) [] None
             (Ok (mkConn 3)) (Ok (mkResponse 200 [])) in
  let r := Run Scripted.runtime 1 Scripted.backup [] (Scripted.store w) in
  outcome r = Returns ("", Some (ErrExternal "no such image")) /\
  length (removals (emitted r)) = 1.
Proof. by vm_compute. Qed.

Example removal_after_inspect_failure :
  let w := Scripted.mkScript (Ok (mkContainer "c0ffee")) None
             [Ok Scripted.pending; Err (ErrExternal "no such container")]
             None (Ok (mkConn 3)) (Ok (mkResponse 200 [])) in
  let r := Run Scripted.runtime 2 Scripted.backup [] (Scripted.store w) in
  outcome r = Returns ("", Some (ErrExternal "no such container")) /\
  length (removals (emitted r)) = 1.
Proof. by vm_compute. Qed.

Example removal_after_decode_error :
  let r := Run Scripted.runtime 3 Scripted.backup []
             (Scripted.store (Scripted.replying Scripted.cut_short)) in
  outcome r = Returns ("", Some (ErrDecode TruncatedFrame)) /\
  length (removals (emitted r)) = 1.
Proof. by vm_compute. Qed.

Example no_removal_after_creation_failure :
  let w := Scripted.mkScript (Err (ErrExternal "no such image")) None []
             None (Ok (mkConn 3)) (Ok (mkResponse 200 [])) in
  let r := Run Scripted.runtime 0 Scripted.backup [] (Scripted.store w) in
  outcome r = Returns ("", Some (ErrExternal "no such image")) /\
  removals (emitted r) = [].
Proof. by vm_compute. Qed.

Example run_stdout_only :
  outcome (Run Scripted.runtime 3 Scripted.backup []
               (Scripted.store (Scripted.script
                  [Scripted.frame Stdout "hello"]))) =
  Returns ("hello", None).
Proof. by vm_compute. Qed.

(** C2: on a script that writes boom to stderr only, [getLogs] returns the
    text boom with [ErrCommandResponse], and [Run] returns the empty text
    with [ErrCommandResponse]: the stderr text does not reach the caller
    of [Run]. *)
Theorem Run_discards_stderr_text :
  let s := Scripted.store (Scripted.script [Scripted.frame Stderr "boom"]) in
  outcome (getLogs Scripted.runtime (Some Scripted.client) "c0ffee" s) =
    Returns ("boom", Some ErrCommandResponse) /\
  outcome (Run Scripted.runtime 3 Scripted.backup [] s) =
    Returns ("", Some ErrCommandResponse).
Proof. by vm_compute. Qed.

(** C5: between two inspections [Run] sleeps 1000100 nanoseconds, one
    millisecond and a hundred nanoseconds; that is less than a fiftieth of
    a hundred milliseconds. *)
Theorem Run_sleeps_one_millisecond :
  sleeps (emitted (Run Scripted.runtime 3 Scripted.backup []
                       (Scripted.store (Scripted.script [])))) =
    [1000100%Z; 1000100%Z] /\
  (Millisecond + 100 = 1000100)%Z /\
  (50 * 1000100 < 100 * Millisecond)%Z.
Proof. by vm_compute. Qed.

(** C8: when the daemon refuses the connection, the error of [net.Dial]
    reaches the caller of [Run] as it is; it mentions the refusal and is
    not [ErrConnectionRefused]. *)
Theorem Run_connection_refused_unclassified :
  let refused :=
    ErrExternal
      "dial unix /var/run/docker.sock: connect: connection refused" in
  outcome (Run Scripted.runtime 3 Scripted.backup []
               (Scripted.store Scripted.refusing)) =
    Returns ("", Some refused) /\
  strings_Contains (Error refused) "connection refused" = true /\
  refused <> ErrConnectionRefused.
Proof. by vm_compute. Qed.

(** ** Further properties on scripted runs *)

Lemma getLogs_ignores_status_witness :
  let w := Scripted.mkScript (Ok (mkContainer "c0ffee")) None [] None
             (Ok (mkConn 3))
             (Ok (mkResponse 404 (encode [Scripted.frame Stdout "hello"]))) in
  outcome (getLogs Scripted.runtime (Some Scripted.client) "c0ffee"
                   (Scripted.store w)) = Returns ("hello", None).
Proof.
  exact (getLogs_ignores_status Scripted.runtime (Some Scripted.client)
           "c0ffee"
           (Scripted.store
              (Scripted.mkScript (Ok (mkContainer "c0ffee")) None [] None
                 (Ok (mkConn 3))
                 (Ok (mkResponse 404
                        (encode [Scripted.frame Stdout "hello"])))))
           _ _ _ 404%Z (encode [Scripted.frame Stdout "hello"]) _
           eq_refl eq_refl eq_refl).
Defined.

Lemma Run_touches_created_container_only_witness :
  dockerClient Scripted.backup = Some Scripted.client /\
  Forall (fun i => i = "c0ffee")
    (touched (emitted (Run Scripted.runtime 3 Scripted.backup []
                           (Scripted.store (Scripted.script []))))).
Proof.
  split; [reflexivity|].
  exact (Run_touches_created_container_only Scripted.runtime 3
           Scripted.backup Scripted.client []
           (Scripted.store (Scripted.script [])) eq_refl).
Defined.


Lemma Run_creates_first_removes_last_witness :
  dockerClient Scripted.backup = Some Scripted.client /\
  head (calls (emitted (Run Scripted.runtime 3 Scripted.backup ["a"]
                            (Scripted.store (Scripted.script [])))))
  = Some (EvCreateContainer Scripted.client
            (create_options Scripted.settings "backup" ["a"])).
Proof.
  split; [reflexivity|].
  exact (proj1 (Run_creates_first_removes_last Scripted.runtime 3
                  Scripted.backup Scripted.client ["a"]
                  (Scripted.store (Scripted.script [])) eq_refl)).
Defined.

Lemma Run_start_failure_witness :
  let w := Scripted.mkScript (Ok (mkContainer "c0ffee"))
             (Some (ErrExternal "no such image")) [] None
             (Ok (mkConn 3)) (Ok (mkResponse 200 [])) in
  outcome (Run Scripted.runtime 0 Scripted.backup [] (Scripted.store w))
  = Returns ("", Some (ErrExternal "no such image")).
Proof.
  exact (proj1 (Run_start_failure Scripted.runtime 0 Scripted.backup
                  Scripted.client []
                  (Scripted.store
                     (Scripted.mkScript (Ok (mkContainer "c0ffee"))
                        (Some (ErrExternal "no such image")) [] None
                        (Ok (mkConn 3)) (Ok (mkResponse 200 []))))
                  _ _ _ _ eq_refl eq_refl eq_refl)).
Defined.

Lemma Run_returns_iff_poll_settles_witness :
  settles Scripted.runtime 3 Scripted.client "c0ffee" (Scripted.script []) /\
  exists res,
    outcome (Run Scripted.runtime 3 Scripted.backup []
                 (Scripted.store (Scripted.script []))) = Returns res.
Proof.
  assert (Hs : settles Scripted.runtime 3 Scripted.client "c0ffee"
                 (Scripted.script [])) by exact I.
  split; [exact Hs|].
  exact (proj2 (Run_returns_iff_poll_settles Scripted.runtime 3
                  Scripted.backup Scripted.client []
                  (Scripted.store (Scripted.script []))
                  (mkContainer "c0ffee") (Scripted.script [])
                  (Scripted.script []) eq_refl eq_refl eq_refl) Hs).
Defined.

Lemma InitCmdContainer_fatal_without_client_witness :
  outcome (InitCmdContainer Offline.runtime
             (map_to_list cmdConfigDefaultOpts) ∅ Offline.store) = Exits.
Proof.
  exact (proj1 (InitCmdContainer_fatal_without_client Offline.runtime
                  (map_to_list cmdConfigDefaultOpts) ∅ Offline.store
                  Offline.down (reflexivity _) eq_refl)).
Defined.

Lemma InitCmdContainer_pulls_configured_image_witness :
  pulls (emitted (InitCmdContainer Scripted.runtime
                    (map_to_list cmdConfigDefaultOpts)
                    {["ContainerTag" := "v9"]}
                    (Scripted.store (Scripted.script [])))) =
    [(mkClient "unix:///var/run/docker.sock",
      {| Repository := "freighterio/cmd"; Tag := "v9" |})].
Proof.
  exact (proj1 (InitCmdContainer_pulls_configured_image Scripted.runtime
                  (map_to_list cmdConfigDefaultOpts)
                  {["ContainerTag" := "v9"]}
                  (Scripted.store (Scripted.script []))
                  (mkClient "unix:///var/run/docker.sock")
                  (reflexivity _) eq_refl)).
Defined.

Lemma Run_after_InitCmdContainer_witness :
  creations (emitted ((InitCmdContainer Scripted.runtime
                         (map_to_list cmdConfigDefaultOpts)
                         {["CommandsDir" := "/srv/cmd"]} ;;
                       let* c := NewCmd "backup" in
                       Run Scripted.runtime 3 c ["a"])
                      (Scripted.store (Scripted.script [])))) =
    [(mkClient "unix:///var/run/docker.sock",
      {| Config := {| Image := "freighterio/cmd:latest";
                      DCmd := ["bash"; "/srv/cmd/backup.sh"; "a"] |} |})].
Proof.
  exact (Run_after_InitCmdContainer Scripted.runtime
           (map_to_list cmdConfigDefaultOpts)
           {["CommandsDir" := "/srv/cmd"]} "backup" 3 ["a"]
           (Scripted.store (Scripted.script []))
           (mkClient "unix:///var/run/docker.sock") (Scripted.script [])
           (reflexivity _) eq_refl eq_refl).
Defined.

Lemma InitCmdContainer_ignores_other_keys_witness :
  InitCmdContainer Scripted.runtime (map_to_list cmdConfigDefaultOpts)
    (<["Verbose" := "yes"]> {["ContainerTag" := "v9"]})
    (Scripted.store (Scripted.script [])) =
  InitCmdContainer Scripted.runtime (map_to_list cmdConfigDefaultOpts)
    {["ContainerTag" := "v9"]} (Scripted.store (Scripted.script [])).
Proof.
  apply (InitCmdContainer_ignores_other_keys Scripted.runtime
           (map_to_list cmdConfigDefaultOpts)
           (<["Verbose" := "yes"]> {["ContainerTag" := "v9"]})
           {["ContainerTag" := "v9"]}
           (Scripted.store (Scripted.script [])) (reflexivity _)).
  intros key [dflt Hkey].
  apply lookup_insert_ne. intros <-. by vm_compute in Hkey.
Defined.
